(** * Forge Automation API: the [/execute] endpoint of [server.py]

    A shallow embedding of the FastAPI backend of the Forge platform and
    the properties of its request/response contract.

    - Python [str] values are sequences of Unicode code points ([list N]);
      [str.strip] and truthiness follow CPython.
    - The handler reads the wall clock twice and writes to the logger; both
      are threaded through an explicit [World].
    - Exceptions are explicit results of a small state-and-error monad. *)

From Stdlib Require Import NArith ZArith String Ascii List Bool Lia.
From stdpp Require Import base option list gmap.
Import ListNotations.

Local Open Scope Z_scope.

(* ===================================================================== *)
(** ** Python strings *)
(* ===================================================================== *)

(** A Python [str]: a sequence of code points. *)
Definition str : Type := list N.

(** A source literal (all literals of [server.py] are ASCII). *)
Definition lit (s : string) : str :=
  List.map N_of_ascii (list_ascii_of_string s).

(** [Py_UNICODE_ISSPACE]: the code points [str.strip()] removes. *)
Definition isspace (c : N) : bool :=
  ((0x09 <=? c) && (c <=? 0x0D) ||
   (0x1C <=? c) && (c <=? 0x20) ||
   (c =? 0x85) || (c =? 0xA0) || (c =? 0x1680) ||
   (0x2000 <=? c) && (c <=? 0x200A) ||
   (c =? 0x2028) || (c =? 0x2029) || (c =? 0x202F) ||
   (c =? 0x205F) || (c =? 0x3000))%N.

(** [s.lstrip()]: drop the leading run of whitespace. *)
Fixpoint lstrip (s : str) : str :=
  match s with
  | [] => []
  | c :: s' => if isspace c then lstrip s' else s
  end.

(** [s.rstrip()]: drop the trailing run of whitespace. *)
Definition rstrip (s : str) : str := rev (lstrip (rev s)).

(** [s.strip()]: the slice between the first and the last non-whitespace
    code point. *)
Definition strip (s : str) : str := rstrip (lstrip s).

(** Truth value of a [str]: only the empty string is falsy. *)
Definition truthy (s : str) : bool :=
  match s with
  | [] => false
  | _ :: _ => true
  end.

(** The wording of the specification: a string that is empty or consists
    only of whitespace. *)
Definition blank (s : str) : bool := forallb isspace s.

(* ===================================================================== *)
(** ** Exceptions *)
(* ===================================================================== *)

(** A raised Python exception as far as [execute_task] observes it:
    whether [except Exception] catches it, and what [str(exc)] returns. *)
Record PyException : Type := mkPyException {
  isinstance_Exception : bool;
  exc_str : str
}.

(** [ValueError(msg)], as raised by the validator. *)
Definition ValueError (msg : str) : PyException :=
  {| isinstance_Exception := true; exc_str := msg |}.

(** What can leave the endpoint instead of a response. *)
Inductive Failure : Type :=
| ValidationError (field : str) (msg : str)
| HTTPException (status_code : Z) (detail : str)
| Uncaught (exc : PyException).

(* ===================================================================== *)
(** ** The environment: wall clock and logger *)
(* ===================================================================== *)

(** A [datetime]: microseconds since the epoch. *)
Definition datetime : Type := Z.

Inductive LogLevel : Type := INFO | ERROR.

Record LogRecord : Type := mkLogRecord {
  levelname : LogLevel;
  log_message : str;
  log_extra : list (str * (str + list str));
  log_exc_info : option PyException
}.

Record World : Type := mkWorld {
  wall_clock : nat -> datetime;   (* the n-th reading of the system clock *)
  clock_reads : nat;              (* readings taken so far *)
  log_records : list LogRecord    (* emitted records, oldest first *)
}.

(** Computations over the world that may raise an [E]. *)
Definition M (E A : Type) : Type := World -> (E + A) * World.

Definition ret {E A : Type} (a : A) : M E A := fun w => (inr a, w).

Definition raise {E A : Type} (e : E) : M E A := fun w => (inl e, w).

Definition bind {E A B : Type} (c : M E A) (k : A -> M E B) : M E B :=
  fun w =>
    match c w with
    | (inr a, w') => k a w'
    | (inl e, w') => (inl e, w')
    end.

Declare Scope py_scope.
Delimit Scope py_scope with py.
Notation "x <- c ;; k" := (bind c (fun x => k))
  (at level 100, c at next level, right associativity) : py_scope.
Notation "c ;; k" := (bind c (fun _ => k))
  (at level 100, right associativity) : py_scope.

(** [try: body / except Exception as exc: handler(exc)].  Exceptions that
    are not instances of [Exception] propagate. *)
Definition try_except {A : Type}
    (body : M PyException A) (handler : PyException -> M Failure A)
  : M Failure A :=
  fun w =>
    match body w with
    | (inr a, w') => (inr a, w')
    | (inl exc, w') =>
        if isinstance_Exception exc then handler exc w'
        else (inl (Uncaught exc), w')
    end.

(** [datetime.utcnow()]: the next reading of the wall clock. *)
Definition utcnow {E : Type} : M E datetime :=
  fun w =>
    (inr (wall_clock w (clock_reads w)),
     {| wall_clock := wall_clock w;
        clock_reads := S (clock_reads w);
        log_records := log_records w |}).

(** The numeric value of a level in [logging]. *)
Definition levelno (l : LogLevel) : Z :=
  match l with
  | INFO => 20
  | ERROR => 40
  end.

(** [logger.getEffectiveLevel()]: [server.py] sets no level on its logger
    and configures no logging, so [logging.getLogger(__name__)] takes the
    level of the root logger, [WARNING]. *)
Definition getEffectiveLevel : Z := 30.

(** [logger.isEnabledFor(level)]. *)
Definition isEnabledFor (l : LogLevel) : bool :=
  getEffectiveLevel <=? levelno l.

(** A logging call: the record is emitted when its level is enabled and
    dropped otherwise. *)
Definition emit {E : Type} (r : LogRecord) : M E unit :=
  fun w =>
    if isEnabledFor (levelname r)
    then (inr tt,
          {| wall_clock := wall_clock w;
             clock_reads := clock_reads w;
             log_records := log_records w ++ [r] |})
    else (inr tt, w).

(** [logger.info(msg, extra=extra)]. *)
Definition logger_info {E : Type}
    (msg : str) (extra : list (str * (str + list str))) : M E unit :=
  emit {| levelname := INFO; log_message := msg;
          log_extra := extra; log_exc_info := None |}.

(** [logger.exception(msg)] inside an [except] block handling [exc]. *)
Definition logger_exception {E : Type}
    (msg : str) (exc : PyException) : M E unit :=
  emit {| levelname := ERROR; log_message := msg;
          log_extra := []; log_exc_info := Some exc |}.

(* ===================================================================== *)
(** ** Data model *)
(* ===================================================================== *)

(** A value stored in the [data] dict of a response. *)
Inductive PyValue : Type :=
| VStr (s : str)
| VList (l : list str).

Module ExecuteRequest.
Record t : Type := mk {
  task : str;
  model : str;
  tools : list str
}.

(** [@validator("task")]: reject a task that strips to the empty
    string, otherwise hand the value back. *)
Definition validate_task (value : str) : PyException + str :=
  if negb (truthy (strip value))
  then inl (ValueError (lit "Task description cannot be empty."))
  else inr value.
End ExecuteRequest.

Module Step.
Record t : Type := mk {
  id : Z;
  action : str;
  status : str;
  detail : option str
}.
End Step.

Module ExecuteResponse.
Record t : Type := mk {
  task : str;
  status : str;
  mode : str;
  message : str;
  steps : list Step.t;
  data : gmap str PyValue;
  started_at : datetime;
  completed_at : datetime
}.
End ExecuteResponse.

(** The JSON body of a request whose fields have the declared types:
    [task] is required, [model] and [tools] may be omitted.  A body with
    a null or wrongly typed field is turned down by the framework on that
    field before any code of [server.py] runs; such bodies are outside
    this type. *)
Record Body : Type := mkBody {
  body_task : option str;
  body_model : option str;
  body_tools : option (list str)
}.

(** Building an [ExecuteRequest] from a body (lines 20-29): [task] is
    required, [model] defaults to "claude" and [tools] to a fresh empty
    list; the validator of [task] runs on the value sent and its
    [ValueError] becomes a validation error of that field. *)
Definition parse_request (b : Body) : Failure + ExecuteRequest.t :=
  match body_task b with
  | None => inl (ValidationError (lit "task") (lit "field required"))
  | Some value =>
      match ExecuteRequest.validate_task value with
      | inl exc => inl (ValidationError (lit "task") (exc_str exc))
      | inr value' =>
          inr {| ExecuteRequest.task := value';
                 ExecuteRequest.model := default (lit "claude") (body_model b);
                 ExecuteRequest.tools := default [] (body_tools b) |}
      end
  end.

(* ===================================================================== *)
(** ** The handler *)
(* ===================================================================== *)

Local Open Scope py_scope.

(** What the [try] block binds: [steps], [result_payload], [message],
    [status]. *)
Definition Outcome : Type :=
  (list Step.t * gmap str PyValue * str * str)%type.

(** Lines 65-80: the body of the [try] block. *)
Definition try_block (request : ExecuteRequest.t) : M PyException Outcome :=
  let steps :=
    [ Step.mk 1 (lit "Initializing agent") (lit "completed")
        (Some (lit "Environment verified."));
      Step.mk 2 (lit "Analyzing task") (lit "completed")
        (Some (lit "Task intent classified."));
      Step.mk 3 (lit "Executing actions") (lit "completed")
        (Some (lit "Simulated agent actions executed."));
      Step.mk 4 (lit "Gathering results") (lit "completed")
        (Some (lit "Compiled structured findings."));
      Step.mk 5 (lit "Finalizing output") (lit "completed")
        (Some (lit "Generated completion payload.")) ] in
  let result_payload : gmap str PyValue :=
    <[ lit "tools_used" := VList (ExecuteRequest.tools request) ]>
    (<[ lit "model" := VStr (ExecuteRequest.model request) ]>
    (<[ lit "summary" :=
          VStr (lit "Task processed successfully in stub backend.") ]> ∅)) in
  let message := lit "Execution completed without errors." in
  let status := lit "completed" in
  ret (steps, result_payload, message, status).

(** Lines 82-84: the [except Exception as exc] block. *)
Definition except_block (exc : PyException) : M Failure Outcome :=
  logger_exception (lit "Task execution failed") exc ;;
  raise (HTTPException 500 (exc_str exc)).

(** [execute_task] with the body of its [try] block as a parameter, so
    that the [except] path can be exercised. *)
Definition execute_task_with
    (body : M PyException Outcome) (request : ExecuteRequest.t)
  : M Failure ExecuteResponse.t :=
  logger_info (lit "Received task request")
    [ (lit "task", inl (ExecuteRequest.task request));
      (lit "model", inl (ExecuteRequest.model request));
      (lit "tools", inr (ExecuteRequest.tools request)) ] ;;
  started_at <- utcnow ;;
  r <- try_except body except_block ;;
  let '(steps, result_payload, message, status) := r in
  completed_at <- utcnow ;;
  ret {| ExecuteResponse.task := ExecuteRequest.task request;
         ExecuteResponse.status := status;
         ExecuteResponse.mode := ExecuteRequest.model request;
         ExecuteResponse.message := message;
         ExecuteResponse.steps := steps;
         ExecuteResponse.data := result_payload;
         ExecuteResponse.started_at := started_at;
         ExecuteResponse.completed_at := completed_at |}.

(** [execute_task], lines 51-97. *)
Definition execute_task (request : ExecuteRequest.t)
  : M Failure ExecuteResponse.t :=
  execute_task_with (try_block request) request.

(** [POST /execute] up to the value [execute_task] returns: the body is
    parsed into an [ExecuteRequest] first and the handler runs only on a
    request that was built.  The JSON encoding of the returned response
    by the framework is not part of it. *)
Definition post_execute (b : Body) : M Failure ExecuteResponse.t :=
  match parse_request b with
  | inl failure => raise failure
  | inr request => execute_task request
  end.


(* ===================================================================== *)
(** ** Sample environments and requests *)
(* ===================================================================== *)

(** A clock that advances by one microsecond per reading, no log yet. *)
Definition ticking_world : World :=
  {| wall_clock := fun n => Z.of_nat n;
     clock_reads := 0;
     log_records := [] |}.

(** A system clock that is set back one second after its first reading. *)
Definition set_back_world : World :=
  {| wall_clock := fun n => match n with O => 1000000 | S _ => 0 end;
     clock_reads := 0;
     log_records := [] |}.

(** The scenario of the specification:
    [{"task": "Summarize the repo", "model": "claude", "tools": ["search"]}]. *)
Definition scenario_body : Body :=
  {| body_task := Some (lit "Summarize the repo");
     body_model := Some (lit "claude");
     body_tools := Some [lit "search"] |}.

(** A body with only a task. *)
Definition task_only (value : str) : Body :=
  {| body_task := Some value; body_model := None; body_tools := None |}.

(** The world in which the [try] block starts: [started_at] has been
    read; the [INFO] call of line 60 is below the effective level and
    left no record. *)
Definition before_try (request : ExecuteRequest.t) (w : World) : World :=
  {| wall_clock := wall_clock w;
     clock_reads := S (clock_reads w);
     log_records := log_records w |}.

(** The world after a run of the handler: two clock readings taken. *)
Definition after_execute (request : ExecuteRequest.t) (w : World) : World :=
  {| wall_clock := wall_clock w;
     clock_reads := S (S (clock_reads w));
     log_records := log_records w |}.

(** The record written by the [except] block (line 83). *)
Definition failed_record (exc : PyException) : LogRecord :=
  {| levelname := ERROR;
     log_message := lit "Task execution failed";
     log_extra := [];
     log_exc_info := Some exc |}.

(** A [try] body that raises [exc] at once. *)
Definition failing_body (exc : PyException) : M PyException Outcome :=
  raise exc.

(** What two responses to the same request have to share: everything but
    the two timestamps. *)
Definition same_but_timestamps (r1 r2 : ExecuteResponse.t) : Prop :=
  ExecuteResponse.task r1 = ExecuteResponse.task r2 /\
  ExecuteResponse.status r1 = ExecuteResponse.status r2 /\
  ExecuteResponse.mode r1 = ExecuteResponse.mode r2 /\
  ExecuteResponse.message r1 = ExecuteResponse.message r2 /\
  ExecuteResponse.steps r1 = ExecuteResponse.steps r2 /\
  ExecuteResponse.data r1 = ExecuteResponse.data r2.

(* ===================================================================== *)
(** ** Stripping *)
(* ===================================================================== *)

Example strip_samples :
  strip (lit "  hi  ") = lit "hi" /\
  strip (lit " a b ") = lit "a b" /\
  strip [0x3000; 0x0A; 0x20]%N = [] /\
  strip [0x200B]%N = [0x200B]%N.
Proof. repeat split. Qed.

Lemma lstrip_nil_iff (s : str) : lstrip s = [] <-> blank s = true.
Proof.
  unfold blank. induction s as [|c s IH]; simpl.
  - tauto.
  - destruct (isspace c); simpl.
    + exact IH.
    + split; discriminate.
Qed.

(** What [lstrip] leaves does not start with whitespace. *)
Lemma lstrip_head (s : str) (c : N) (t : str) :
  lstrip s = c :: t -> isspace c = false.
Proof.
  induction s as [|d s IH]; simpl; [discriminate|].
  destruct (isspace d) eqn:Hd; [exact IH|].
  intros [= -> _]. exact Hd.
Qed.

Lemma blank_rev (s : str) : blank (rev s) = blank s.
Proof.
  unfold blank. induction s as [|c s IH]; simpl; [reflexivity|].
  rewrite forallb_app, IH. simpl. rewrite andb_true_r. apply andb_comm.
Qed.

Lemma rstrip_nil_iff (s : str) : rstrip s = [] <-> blank s = true.
Proof.
  unfold rstrip. rewrite <- blank_rev, <- lstrip_nil_iff.
  split; intros H.
  - apply (f_equal (@rev N)) in H. rewrite rev_involutive in H. exact H.
  - rewrite H. reflexivity.
Qed.

(** A string strips to nothing exactly when it is blank. *)
Lemma strip_nil_iff (s : str) : strip s = [] <-> blank s = true.
Proof.
  unfold strip. rewrite rstrip_nil_iff. split; intros H.
  - apply lstrip_nil_iff.
    destruct (lstrip s) as [|c t] eqn:Hs; [reflexivity|].
    apply lstrip_head in Hs. unfold blank in H. simpl in H.
    rewrite Hs in H. discriminate.
  - apply lstrip_nil_iff in H. rewrite H. reflexivity.
Qed.

Lemma truthy_strip (s : str) : truthy (strip s) = negb (blank s).
Proof.
  destruct (blank s) eqn:Hb.
  - apply strip_nil_iff in Hb. rewrite Hb. reflexivity.
  - destruct (strip s) eqn:Hs; [|reflexivity].
    apply strip_nil_iff in Hs. congruence.
Qed.

Lemma strip_nonempty_not_blank (s : str) : strip s <> [] <-> blank s = false.
Proof.
  rewrite strip_nil_iff. destruct (blank s); split; congruence.
Qed.

(* ===================================================================== *)
(** ** Running the validator and the handler *)
(* ===================================================================== *)

Lemma validate_task_blank (value : str) :
  blank value = true ->
  ExecuteRequest.validate_task value =
    inl (ValueError (lit "Task description cannot be empty.")).
Proof.
  intros Hb. unfold ExecuteRequest.validate_task.
  rewrite truthy_strip, Hb. reflexivity.
Qed.

Lemma validate_task_not_blank (value : str) :
  blank value = false -> ExecuteRequest.validate_task value = inr value.
Proof.
  intros Hb. unfold ExecuteRequest.validate_task.
  rewrite truthy_strip, Hb. reflexivity.
Qed.

(** A body is accepted exactly when it carries a task that is not blank;
    the request then holds the task as sent and the defaults for what was
    left out. *)
Lemma parse_request_inr (b : Body) (request : ExecuteRequest.t) :
  parse_request b = inr request <->
  exists value,
    body_task b = Some value /\ blank value = false /\
    request = {| ExecuteRequest.task := value;
                 ExecuteRequest.model := default (lit "claude") (body_model b);
                 ExecuteRequest.tools := default [] (body_tools b) |}.
Proof.
  unfold parse_request. destruct (body_task b) as [value|].
  - destruct (blank value) eqn:Hb.
    + rewrite (validate_task_blank _ Hb). split; [discriminate|].
      intros (v & [= <-] & Hv & _). congruence.
    + rewrite (validate_task_not_blank _ Hb). split.
      * intros [= <-]. exists value. auto.
      * intros (v & [= <-] & _ & ->). reflexivity.
  - split; [discriminate|]. intros (v & Hv & _). discriminate.
Qed.

(** The handler is total and never raises: its run is one straight line. *)
Lemma execute_task_returns (request : ExecuteRequest.t) (w : World) :
  exists response,
    execute_task request w = (inr response, after_execute request w) /\
    ExecuteResponse.task response = ExecuteRequest.task request /\
    ExecuteResponse.mode response = ExecuteRequest.model request /\
    ExecuteResponse.started_at response = wall_clock w (clock_reads w) /\
    ExecuteResponse.completed_at response = wall_clock w (S (clock_reads w)) /\
    fst (try_block request w) =
      inr (ExecuteResponse.steps response, ExecuteResponse.data response,
           ExecuteResponse.message response, ExecuteResponse.status response).
Proof.
  eexists. split; [reflexivity|]. repeat split.
Qed.

Lemma post_execute_accepted (b : Body) (request : ExecuteRequest.t) (w : World) :
  parse_request b = inr request ->
  post_execute b w = execute_task request w.
Proof. intros H. unfold post_execute. rewrite H. reflexivity. Qed.

Lemma post_execute_rejected (b : Body) (failure : Failure) (w : World) :
  parse_request b = inl failure ->
  post_execute b w = (inl failure, w).
Proof. intros H. unfold post_execute. rewrite H. reflexivity. Qed.

Lemma parse_request_task (b : Body) (value : str) :
  body_task b = Some value -> strip value <> [] ->
  parse_request b =
    inr {| ExecuteRequest.task := value;
           ExecuteRequest.model := default (lit "claude") (body_model b);
           ExecuteRequest.tools := default [] (body_tools b) |}.
Proof.
  intros Ht Hs. apply parse_request_inr. exists value.
  apply strip_nonempty_not_blank in Hs. auto.
Qed.

(** The three keys of [result_payload]. *)
Lemma result_payload_lookup (request : ExecuteRequest.t) (w : World)
    (steps : list Step.t) (payload : gmap str PyValue) (message status : str) :
  fst (try_block request w) = inr (steps, payload, message, status) ->
  payload !! lit "summary" =
    Some (VStr (lit "Task processed successfully in stub backend.")) /\
  payload !! lit "model" = Some (VStr (ExecuteRequest.model request)) /\
  payload !! lit "tools_used" = Some (VList (ExecuteRequest.tools request)).
Proof.
  intros [= <- <- <- <-]. split; [|split].
  - rewrite !lookup_insert_ne by discriminate. apply lookup_insert_eq.
  - rewrite lookup_insert_ne by discriminate. apply lookup_insert_eq.
  - apply lookup_insert_eq.
Qed.

(** A [try] body that raises: an [Exception] reaches the [except] block,
    anything else propagates; no second clock reading is taken and no
    response is built. *)
Lemma execute_task_with_raises
    (body : M PyException Outcome) (request : ExecuteRequest.t)
    (w w1 : World) (exc : PyException) :
  body (before_try request w) = (inl exc, w1) ->
  execute_task_with body request w =
    if isinstance_Exception exc
    then (inl (HTTPException 500 (exc_str exc)),
          {| wall_clock := wall_clock w1;
             clock_reads := clock_reads w1;
             log_records := log_records w1 ++ [failed_record exc] |})
    else (inl (Uncaught exc), w1).
Proof.
  intros Hbody.
  unfold execute_task_with, bind, try_except, logger_info, emit, utcnow.
  cbn [levelname]. change (isEnabledFor INFO) with false.
  cbv beta iota.
  match goal with
  | |- context [body ?x] => change x with (before_try request w)
  end.
  rewrite Hbody. destruct (isinstance_Exception exc); reflexivity.
Qed.

(* ===================================================================== *)
(** ** The response to an accepted request *)
(* ===================================================================== *)

(** C1.  For every request whose task is not empty after trimming, the
    endpoint returns a response whose [steps] are exactly five records,
    with ids 1, 2, 3, 4, 5 in that order, the five hardcoded actions
    (initializing agent, analyzing task, executing actions, gathering
    results, finalizing output) and every status equal to "completed". *)
Theorem steps_fixed (b : Body) (value : str) (w : World) :
  body_task b = Some value ->
  strip value <> [] ->
  exists response w',
    post_execute b w = (inr response, w') /\
    length (ExecuteResponse.steps response) = 5%nat /\
    List.map Step.id (ExecuteResponse.steps response) = [1; 2; 3; 4; 5] /\
    List.map Step.action (ExecuteResponse.steps response) =
      [ lit "Initializing agent"; lit "Analyzing task";
        lit "Executing actions"; lit "Gathering results";
        lit "Finalizing output" ] /\
    Forall (fun s => Step.status s = lit "completed")
      (ExecuteResponse.steps response).
Proof.
  intros Ht Hs.
  rewrite (post_execute_accepted _ _ w (parse_request_task b value Ht Hs)).
  eexists _, _. split; [reflexivity|]. cbn [ExecuteResponse.steps].
  repeat split. repeat constructor.
Qed.

Lemma steps_fixed_witness :
  strip (lit "Summarize the repo") <> [] /\
  exists response w',
    post_execute scenario_body ticking_world = (inr response, w') /\
    length (ExecuteResponse.steps response) = 5%nat /\
    List.map Step.id (ExecuteResponse.steps response) = [1; 2; 3; 4; 5] /\
    List.map Step.action (ExecuteResponse.steps response) =
      [ lit "Initializing agent"; lit "Analyzing task";
        lit "Executing actions"; lit "Gathering results";
        lit "Finalizing output" ] /\
    Forall (fun s => Step.status s = lit "completed")
      (ExecuteResponse.steps response).
Proof.
  split; [vm_compute; discriminate|].
  apply (steps_fixed scenario_body (lit "Summarize the repo") ticking_world).
  - reflexivity.
  - vm_compute; discriminate.
Defined.

(** C3.  For every request that passes validation, the response echoes
    the input: [response.task] is [request.task] and [response.mode] is
    [request.model]. *)
Theorem echo_task_and_mode
    (b : Body) (request : ExecuteRequest.t) (w : World) :
  parse_request b = inr request ->
  exists response w',
    post_execute b w = (inr response, w') /\
    ExecuteResponse.task response = ExecuteRequest.task request /\
    ExecuteResponse.mode response = ExecuteRequest.model request.
Proof.
  intros Hp. rewrite (post_execute_accepted _ _ w Hp).
  destruct (execute_task_returns request w) as (response & Hrun & Ht & Hm & _).
  exists response, (after_execute request w). auto.
Qed.

Lemma echo_task_and_mode_witness :
  exists response w',
    post_execute scenario_body ticking_world = (inr response, w') /\
    ExecuteResponse.task response = lit "Summarize the repo" /\
    ExecuteResponse.mode response = lit "claude".
Proof.
  apply (echo_task_and_mode scenario_body
           (ExecuteRequest.mk (lit "Summarize the repo") (lit "claude")
              [lit "search"])
           ticking_world).
  reflexivity.
Defined.

(** C4.  For every request that passes validation,
    [response.data["tools_used"]] is [request.tools], element for element
    in the same order and without deduplication (the empty list
    included), and [response.data["model"]] is [request.model]. *)
Theorem echo_tools_and_model
    (b : Body) (request : ExecuteRequest.t) (w : World) :
  parse_request b = inr request ->
  exists response w',
    post_execute b w = (inr response, w') /\
    ExecuteResponse.data response !! lit "tools_used" =
      Some (VList (ExecuteRequest.tools request)) /\
    ExecuteResponse.data response !! lit "model" =
      Some (VStr (ExecuteRequest.model request)).
Proof.
  intros Hp. rewrite (post_execute_accepted _ _ w Hp).
  destruct (execute_task_returns request w)
    as (response & Hrun & _ & _ & _ & _ & Htry).
  apply result_payload_lookup in Htry as (_ & Hmodel & Htools).
  exists response, (after_execute request w). auto.
Qed.

Lemma echo_tools_and_model_witness :
  (exists response w',
     post_execute scenario_body ticking_world = (inr response, w') /\
     ExecuteResponse.data response !! lit "tools_used" =
       Some (VList [lit "search"]) /\
     ExecuteResponse.data response !! lit "model" =
       Some (VStr (lit "claude"))) /\
  (exists response w',
     post_execute
       (mkBody (Some (lit "x")) (Some (lit "m"))
          (Some [lit "b"; lit "a"; lit "b"]))
       ticking_world = (inr response, w') /\
     ExecuteResponse.data response !! lit "tools_used" =
       Some (VList [lit "b"; lit "a"; lit "b"]) /\
     ExecuteResponse.data response !! lit "model" = Some (VStr (lit "m"))) /\
  (exists response w',
     post_execute (mkBody (Some (lit "x")) (Some (lit "m")) (Some []))
       ticking_world = (inr response, w') /\
     ExecuteResponse.data response !! lit "tools_used" = Some (VList []) /\
     ExecuteResponse.data response !! lit "model" = Some (VStr (lit "m"))).
Proof.
  split; [|split].
  - apply (echo_tools_and_model scenario_body
             (ExecuteRequest.mk (lit "Summarize the repo") (lit "claude")
                [lit "search"])
             ticking_world).
    reflexivity.
  - apply (echo_tools_and_model _
             (ExecuteRequest.mk (lit "x") (lit "m")
                [lit "b"; lit "a"; lit "b"])
             ticking_world).
    reflexivity.
  - apply (echo_tools_and_model _
             (ExecuteRequest.mk (lit "x") (lit "m") [])
             ticking_world).
    reflexivity.
Defined.

(* ===================================================================== *)
(** ** Validation *)
(* ===================================================================== *)

(** C2.  For every request whose task is empty or consists only of
    whitespace, building the request fails with a [ValidationError]; the
    handler does not run, so the world is left as it was (no step is
    constructed, no log record written, no clock reading taken) and no
    response is produced. *)
Theorem blank_task_rejected (b : Body) (value : str) (w : World) :
  body_task b = Some value ->
  blank value = true ->
  parse_request b =
    inl (ValidationError (lit "task")
           (lit "Task description cannot be empty.")) /\
  post_execute b w =
    (inl (ValidationError (lit "task")
            (lit "Task description cannot be empty.")), w) /\
  forall response w', post_execute b w <> (inr response, w').
Proof.
  intros Ht Hb.
  assert (Hp : parse_request b =
                 inl (ValidationError (lit "task")
                        (lit "Task description cannot be empty."))).
  { unfold parse_request. rewrite Ht, (validate_task_blank _ Hb). reflexivity. }
  split; [exact Hp|].
  rewrite (post_execute_rejected _ _ w Hp). split; [reflexivity|].
  intros response w'. discriminate.
Qed.

Lemma blank_task_rejected_witness :
  post_execute (task_only (lit "")) ticking_world =
    (inl (ValidationError (lit "task")
            (lit "Task description cannot be empty.")), ticking_world) /\
  post_execute (task_only (lit "   ")) ticking_world =
    (inl (ValidationError (lit "task")
            (lit "Task description cannot be empty.")), ticking_world).
Proof.
  split.
  - apply (blank_task_rejected (task_only (lit "")) (lit "") ticking_world);
      reflexivity.
  - apply (blank_task_rejected (task_only (lit "   ")) (lit "   ")
             ticking_world); reflexivity.
Defined.

(** C9.  Validation never changes the task: for every task with at least
    one non-whitespace character the validator returns the string it was
    given, and [response.task] is that string with its leading and
    trailing whitespace intact. *)
Theorem task_kept_verbatim (b : Body) (value : str) (w : World) :
  body_task b = Some value ->
  blank value = false ->
  ExecuteRequest.validate_task value = inr value /\
  exists response w',
    post_execute b w = (inr response, w') /\
    ExecuteResponse.task response = value.
Proof.
  intros Ht Hb. split; [exact (validate_task_not_blank _ Hb)|].
  assert (Hp : parse_request b =
                 inr {| ExecuteRequest.task := value;
                        ExecuteRequest.model :=
                          default (lit "claude") (body_model b);
                        ExecuteRequest.tools := default [] (body_tools b) |}).
  { apply parse_request_inr. exists value. auto. }
  rewrite (post_execute_accepted _ _ w Hp).
  eexists _, _. split; reflexivity.
Qed.

Lemma task_kept_verbatim_witness :
  ExecuteRequest.validate_task (lit "  hi  ") = inr (lit "  hi  ") /\
  exists response w',
    post_execute (task_only (lit "  hi  ")) ticking_world =
      (inr response, w') /\
    ExecuteResponse.task response = lit "  hi  ".
Proof.
  apply (task_kept_verbatim (task_only (lit "  hi  ")) (lit "  hi  ")
           ticking_world); reflexivity.
Defined.

(** C5.  For every accepted request that omits [model], the parsed
    request's model is "claude" and so is [response.mode]; for every
    accepted request that omits [tools], the parsed request's tools are
    the empty list and so is [response.data["tools_used"]]. *)
Theorem omitted_fields_default
    (b : Body) (request : ExecuteRequest.t) (w : World) :
  parse_request b = inr request ->
  (body_model b = None ->
   ExecuteRequest.model request = lit "claude" /\
   exists response w',
     post_execute b w = (inr response, w') /\
     ExecuteResponse.mode response = lit "claude") /\
  (body_tools b = None ->
   ExecuteRequest.tools request = [] /\
   exists response w',
     post_execute b w = (inr response, w') /\
     ExecuteResponse.data response !! lit "tools_used" = Some (VList [])).
Proof.
  intros Hp. rewrite (post_execute_accepted _ _ w Hp).
  destruct (execute_task_returns request w)
    as (response & Hrun & _ & Hmode & _ & _ & Htry).
  apply result_payload_lookup in Htry as (_ & _ & Htools).
  apply parse_request_inr in Hp as (value & _ & _ & ->).
  cbn [ExecuteRequest.model ExecuteRequest.tools] in *.
  split; intros Hnone; rewrite Hnone in *; (split; [reflexivity|]);
    exists response; eexists; split; eassumption.
Qed.

Lemma omitted_fields_default_witness :
  (exists response w',
     post_execute (task_only (lit "Summarize the repo")) ticking_world =
       (inr response, w') /\
     ExecuteResponse.mode response = lit "claude") /\
  (exists response w',
     post_execute (task_only (lit "Summarize the repo")) ticking_world =
       (inr response, w') /\
     ExecuteResponse.data response !! lit "tools_used" = Some (VList [])).
Proof.
  pose proof
    (omitted_fields_default (task_only (lit "Summarize the repo"))
       (ExecuteRequest.mk (lit "Summarize the repo") (lit "claude") [])
       ticking_world eq_refl) as [Hmodel Htools].
  split.
  - exact (proj2 (Hmodel eq_refl)).
  - exact (proj2 (Htools eq_refl)).
Defined.

(** C10.  [model] and [tools] are taken as sent: for every string
    [model_v] (the empty string included) and every list of strings
    [tools_v] (duplicates and empty strings included), a request whose
    task is not blank is accepted, [response.mode] is [model_v] and
    [response.data["tools_used"]] is [tools_v]. *)
Theorem model_and_tools_unchecked
    (value model_v : str) (tools_v : list str) (w : World) :
  blank value = false ->
  parse_request (mkBody (Some value) (Some model_v) (Some tools_v)) =
    inr (ExecuteRequest.mk value model_v tools_v) /\
  exists response w',
    post_execute (mkBody (Some value) (Some model_v) (Some tools_v)) w =
      (inr response, w') /\
    ExecuteResponse.mode response = model_v /\
    ExecuteResponse.data response !! lit "model" = Some (VStr model_v) /\
    ExecuteResponse.data response !! lit "tools_used" = Some (VList tools_v).
Proof.
  intros Hb.
  assert (Hp : parse_request (mkBody (Some value) (Some model_v) (Some tools_v))
               = inr (ExecuteRequest.mk value model_v tools_v)).
  { apply parse_request_inr. exists value. auto. }
  split; [exact Hp|]. rewrite (post_execute_accepted _ _ w Hp).
  destruct (execute_task_returns (ExecuteRequest.mk value model_v tools_v) w)
    as (response & Hrun & _ & Hmode & _ & _ & Htry).
  apply result_payload_lookup in Htry as (_ & Hmodel & Htools).
  exists response, (after_execute (ExecuteRequest.mk value model_v tools_v) w).
  auto.
Qed.

Lemma model_and_tools_unchecked_witness :
  exists response w',
    post_execute
      (mkBody (Some (lit "go")) (Some (lit ""))
         (Some [lit "search"; lit ""; lit "search"]))
      ticking_world = (inr response, w') /\
    ExecuteResponse.mode response = lit "" /\
    ExecuteResponse.data response !! lit "model" = Some (VStr (lit "")) /\
    ExecuteResponse.data response !! lit "tools_used" =
      Some (VList [lit "search"; lit ""; lit "search"]).
Proof.
  apply (model_and_tools_unchecked (lit "go") (lit "")
           [lit "search"; lit ""; lit "search"] ticking_world).
  reflexivity.
Defined.

(* ===================================================================== *)
(** ** Determinism, timestamps and the [except] branch *)
(* ===================================================================== *)

(** C6.  The handler is deterministic apart from its timestamps: two runs
    of [execute_task] on the same request, in any two worlds, both return
    a response, and the two responses have the same [steps], [message],
    [data] and [status] (and [task] and [mode]); only [started_at] and
    [completed_at] may differ.  The same holds for the endpoint: two
    posts of the same body are both rejected with the same error or both
    answered with responses equal up to the timestamps. *)
Theorem deterministic_but_timestamps :
  (forall (request : ExecuteRequest.t) (w1 w2 : World),
     exists r1 r2 w1' w2',
       execute_task request w1 = (inr r1, w1') /\
       execute_task request w2 = (inr r2, w2') /\
       same_but_timestamps r1 r2) /\
  (forall (b : Body) (w1 w2 : World),
     match fst (post_execute b w1), fst (post_execute b w2) with
     | inr r1, inr r2 => same_but_timestamps r1 r2
     | inl f1, inl f2 => f1 = f2
     | _, _ => False
     end).
Proof.
  split.
  - intros request w1 w2. eexists _, _, _, _.
    split; [reflexivity|]. split; [reflexivity|].
    repeat split.
  - intros b w1 w2. unfold post_execute.
    destruct (parse_request b) as [failure|request]; cbn.
    + reflexivity.
    + repeat split.
Qed.

(** C7, for a clock that does not go back between the two readings.
    For every successful response of [execute_task], [started_at] is the
    clock reading taken before the steps are built and [completed_at] the
    one taken next; whenever the second of these two readings is not
    earlier than the first, [completed_at >= started_at]. *)
Theorem timestamps_ordered
    (request : ExecuteRequest.t) (w : World) (response : ExecuteResponse.t) :
  fst (execute_task request w) = inr response ->
  ExecuteResponse.started_at response = wall_clock w (clock_reads w) /\
  ExecuteResponse.completed_at response = wall_clock w (S (clock_reads w)) /\
  (wall_clock w (clock_reads w) <= wall_clock w (S (clock_reads w)) ->
   ExecuteResponse.completed_at response >=
   ExecuteResponse.started_at response).
Proof.
  intros Hrun.
  destruct (execute_task_returns request w)
    as (response0 & Hrun0 & _ & _ & Hs & Hc & _).
  rewrite Hrun0 in Hrun. injection Hrun as <-.
  split; [exact Hs|]. split; [exact Hc|].
  intros Hclock. rewrite Hs, Hc. apply Z.le_ge, Hclock.
Qed.

Lemma timestamps_ordered_witness :
  exists response,
    fst (execute_task
           (ExecuteRequest.mk (lit "Summarize the repo") (lit "claude")
              [lit "search"])
           ticking_world) = inr response /\
    ExecuteResponse.started_at response = 0 /\
    ExecuteResponse.completed_at response = 1 /\
    ExecuteResponse.completed_at response >= ExecuteResponse.started_at response.
Proof.
  eexists. split; [reflexivity|].
  destruct (timestamps_ordered
              (ExecuteRequest.mk (lit "Summarize the repo") (lit "claude")
                 [lit "search"])
              ticking_world _ eq_refl) as (Hs & Hc & Hord).
  split; [exact Hs|]. split; [exact Hc|].
  apply Hord. cbn. lia.
Defined.

(** C7 without the assumption on the clock does not hold:
    [datetime.utcnow()] reads the wall clock, and when that is set back
    between the two readings the request is answered successfully with
    [completed_at] earlier than [started_at]. *)
Lemma timestamps_clock_set_back :
  exists response w',
    post_execute scenario_body set_back_world = (inr response, w') /\
    ExecuteResponse.started_at response = 1000000 /\
    ExecuteResponse.completed_at response = 0 /\
    ~ (ExecuteResponse.completed_at response >=
       ExecuteResponse.started_at response).
Proof.
  eexists _, _. split; [reflexivity|]. cbn. repeat split. lia.
Qed.

(** C8.  The [except] branch is dead for every request: the handler
    returns a response, so it never raises an [HTTPException] (nor
    anything else), and no post ends in one.  Had the body of the [try]
    block raised an [Exception], the handler would have logged it and
    raised [HTTPException 500] with [str(exc)] as detail, returning no
    response. *)
Theorem internal_error_unreachable :
  (forall (request : ExecuteRequest.t) (w : World),
     (exists response w', execute_task request w = (inr response, w')) /\
     forall failure w', execute_task request w <> (inl failure, w')) /\
  (forall (b : Body) (w w' : World) (code : Z) (detail : str),
     post_execute b w <> (inl (HTTPException code detail), w')) /\
  (forall (body : M PyException Outcome) (request : ExecuteRequest.t)
          (w w1 : World) (exc : PyException),
     isinstance_Exception exc = true ->
     body (before_try request w) = (inl exc, w1) ->
     execute_task_with body request w =
       (inl (HTTPException 500 (exc_str exc)),
        {| wall_clock := wall_clock w1;
           clock_reads := clock_reads w1;
           log_records := log_records w1 ++ [failed_record exc] |})).
Proof.
  split; [|split].
  - intros request w. split.
    + eexists _, _. reflexivity.
    + intros failure w'. discriminate.
  - intros b w w' code detail. unfold post_execute.
    destruct (parse_request b) as [failure|request] eqn:Hp.
    + unfold raise. intros [= -> _].
      unfold parse_request in Hp.
      destruct (body_task b); [|discriminate].
      destruct (ExecuteRequest.validate_task _); discriminate.
    + discriminate.
  - intros body request w w1 exc Hexc Hbody.
    rewrite (execute_task_with_raises body request w w1 exc Hbody), Hexc.
    reflexivity.
Qed.

Lemma internal_error_unreachable_witness :
  execute_task_with
    (failing_body (mkPyException true (lit "boom")))
    (ExecuteRequest.mk (lit "Summarize the repo") (lit "claude") [])
    ticking_world =
  (inl (HTTPException 500 (lit "boom")),
   {| wall_clock := wall_clock ticking_world;
      clock_reads := 1;
      log_records := [ failed_record (mkPyException true (lit "boom")) ] |}).
Proof.
  apply (proj2 (proj2 internal_error_unreachable)
           (failing_body (mkPyException true (lit "boom")))
           (ExecuteRequest.mk (lit "Summarize the repo") (lit "claude") [])
           ticking_world
           (before_try
              (ExecuteRequest.mk (lit "Summarize the repo") (lit "claude") [])
              ticking_world)
           (mkPyException true (lit "boom"))).
  - reflexivity.
  - reflexivity.
Defined.

(* ===================================================================== *)
(** ** Further properties of the validator *)
(* ===================================================================== *)

Lemma blank_false_iff (s : str) :
  blank s = false <-> exists c, List.In c s /\ isspace c = false.
Proof.
  unfold blank. induction s as [|d s IH]; simpl.
  - split; [discriminate|]. intros (c & [] & _).
  - destruct (isspace d) eqn:Hd; simpl.
    + rewrite IH. split.
      * intros (c & Hin & Hc). exists c. auto.
      * intros (c & [-> | Hin] & Hc); [congruence|]. exists c. auto.
    + split; [|reflexivity]. intros _. exists d. auto.
Qed.

Lemma blank_true_iff (s : str) :
  blank s = true <-> forall c, List.In c s -> isspace c = true.
Proof. unfold blank. apply forallb_forall. Qed.

Lemma lstrip_split (s : str) :
  exists a, s = a ++ lstrip s /\ blank a = true.
Proof.
  induction s as [|c s (a & Hs & Ha)]; simpl.
  - exists []. auto.
  - destruct (isspace c) eqn:Hc.
    + exists (c :: a). split; [simpl; congruence|].
      unfold blank in *. simpl. rewrite Hc. exact Ha.
    + exists []. auto.
Qed.

Lemma rstrip_split (s : str) :
  exists b, s = rstrip s ++ b /\ blank b = true.
Proof.
  destruct (lstrip_split (rev s)) as (a & Hs & Ha).
  exists (rev a). split.
  - unfold rstrip. rewrite <- rev_app_distr, <- Hs, rev_involutive. reflexivity.
  - rewrite blank_rev. exact Ha.
Qed.

(** X1.  [validate_task] accepts exactly the strings that hold a code
    point that is not whitespace, handing them back as they are, and
    raises its [ValueError] exactly on those made of whitespace only. *)
Theorem validate_task_verdict (value : str) :
  (ExecuteRequest.validate_task value = inr value <->
   exists c, List.In c value /\ isspace c = false) /\
  (ExecuteRequest.validate_task value =
     inl (ValueError (lit "Task description cannot be empty.")) <->
   forall c, List.In c value -> isspace c = true) /\
  forall other, ExecuteRequest.validate_task value = inr other -> other = value.
Proof.
  rewrite <- blank_false_iff, <- blank_true_iff.
  destruct (blank value) eqn:Hb.
  - rewrite (validate_task_blank _ Hb). repeat split; try discriminate; auto.
  - rewrite (validate_task_not_blank _ Hb). repeat split; try discriminate; auto.
    intros other [= <-]. reflexivity.
Qed.

Lemma strip_split (s : str) :
  exists a b, s = a ++ strip s ++ b /\ blank a = true /\ blank b = true.
Proof.
  destruct (lstrip_split s) as (a & Hs & Ha).
  destruct (rstrip_split (lstrip s)) as (b & Hl & Hb).
  fold (strip s) in Hl. exists a, b. rewrite <- Hl. auto.
Qed.

Lemma strip_head (s : str) (c : N) (t : str) :
  strip s = c :: t -> isspace c = false.
Proof.
  intros Hc. destruct (rstrip_split (lstrip s)) as (b & Hl & _).
  fold (strip s) in Hl. rewrite Hc in Hl. simpl in Hl.
  exact (lstrip_head _ _ _ Hl).
Qed.

Lemma strip_last (s : str) (t : str) (c : N) :
  strip s = t ++ [c] -> isspace c = false.
Proof.
  intros Hc. unfold strip, rstrip in Hc.
  apply (f_equal (@rev N)) in Hc.
  rewrite rev_involutive, rev_app_distr in Hc. simpl in Hc.
  exact (lstrip_head _ _ _ Hc).
Qed.

(** X2.  [value.strip()] cuts whitespace off the two ends and nothing
    else: the value is a run of whitespace, the stripped string and
    another run of whitespace, and the stripped string neither starts nor
    ends with whitespace. *)
Theorem strip_only_trims_ends (s : str) :
  (exists a b, s = a ++ strip s ++ b /\ blank a = true /\ blank b = true) /\
  (forall c t, strip s = c :: t -> isspace c = false) /\
  (forall t c, strip s = t ++ [c] -> isspace c = false).
Proof.
  split; [exact (strip_split s)|]. split.
  - intros c t. apply strip_head.
  - intros t c. apply strip_last.
Qed.

(** X3.  Stripping twice is stripping once, and the validator accepts
    the stripped form of a task exactly when it accepts the task. *)
Theorem strip_idempotent (s : str) :
  strip (strip s) = strip s /\
  (ExecuteRequest.validate_task (strip s) = inr (strip s) <->
   ExecuteRequest.validate_task s = inr s).
Proof.
  assert (Hfix : forall t, (forall c u, t = c :: u -> isspace c = false) ->
                 lstrip t = t).
  { intros [|c u] Hh; [reflexivity|]. simpl.
    rewrite (Hh c u eq_refl). reflexivity. }
  pose proof (strip_head s) as Hhead. pose proof (strip_last s) as Hlast.
  assert (Hidem : strip (strip s) = strip s).
  { unfold strip at 1. rewrite (Hfix (strip s) Hhead).
    unfold rstrip. rewrite Hfix; [apply rev_involutive|].
    intros c u Hr. apply (Hlast (rev u) c).
    rewrite <- (rev_involutive (strip s)), Hr. reflexivity. }
  split; [exact Hidem|].
  unfold ExecuteRequest.validate_task. rewrite Hidem.
  destruct (truthy (strip s)); simpl; [tauto|].
  split; discriminate.
Qed.

(* ===================================================================== *)
(** ** Further properties of the endpoint *)
(* ===================================================================== *)

Lemma post_execute_inr (b : Body) (w w' : World) (response : ExecuteResponse.t) :
  post_execute b w = (inr response, w') ->
  exists request,
    parse_request b = inr request /\
    execute_task request w = (inr response, w').
Proof.
  unfold post_execute. destruct (parse_request b) as [failure|request].
  - discriminate.
  - intros H. exists request. auto.
Qed.

(** X5.  A body without [task] is rejected as a validation error of that
    field whatever [model] and [tools] are, before the handler runs. *)
Theorem missing_task_rejected (b : Body) (w : World) :
  body_task b = None ->
  exists msg,
    post_execute b w = (inl (ValidationError (lit "task") msg), w).
Proof.
  intros Ht. unfold post_execute, parse_request. rewrite Ht.
  eexists. reflexivity.
Qed.

Lemma missing_task_rejected_witness :
  exists msg,
    post_execute (mkBody None (Some (lit "claude")) (Some [lit "search"]))
      ticking_world =
    (inl (ValidationError (lit "task") msg), ticking_world).
Proof.
  apply (missing_task_rejected
           (mkBody None (Some (lit "claude")) (Some [lit "search"]))
           ticking_world).
  reflexivity.
Defined.

(** X7.  With the logging defaults that [server.py] leaves in place,
    answering a request emits no log record (the [INFO] call of line 60
    is below the effective level [WARNING]) and takes exactly two
    readings of the clock. *)
Theorem no_record_two_readings
    (b : Body) (w w' : World) (response : ExecuteResponse.t) :
  post_execute b w = (inr response, w') ->
  log_records w' = log_records w /\
  wall_clock w' = wall_clock w /\
  clock_reads w' = (clock_reads w + 2)%nat.
Proof.
  intros Hrun. apply post_execute_inr in Hrun as (request & _ & Hrun).
  destruct (execute_task_returns request w) as (response0 & Hrun0 & _).
  rewrite Hrun0 in Hrun. injection Hrun as _ <-.
  split; [reflexivity|]. split; [reflexivity|]. cbn. lia.
Qed.

Lemma no_record_two_readings_witness :
  exists response w',
    post_execute scenario_body ticking_world = (inr response, w') /\
    log_records w' = [] /\
    wall_clock w' = wall_clock ticking_world /\
    clock_reads w' = 2%nat.
Proof.
  eexists _, _. split; [reflexivity|].
  exact (no_record_two_readings scenario_body ticking_world _ _ eq_refl).
Defined.

(** X8.  The [data] dict of a response has exactly the keys "summary",
    "model" and "tools_used"; "summary" is the fixed success sentence. *)
Theorem data_keys
    (b : Body) (w w' : World) (response : ExecuteResponse.t) :
  post_execute b w = (inr response, w') ->
  dom (ExecuteResponse.data response) =
    ({[ lit "summary"; lit "model"; lit "tools_used" ]} : gset str) /\
  ExecuteResponse.data response !! lit "summary" =
    Some (VStr (lit "Task processed successfully in stub backend.")) /\
  forall key,
    key <> lit "summary" -> key <> lit "model" -> key <> lit "tools_used" ->
    ExecuteResponse.data response !! key = None.
Proof.
  intros Hrun. apply post_execute_inr in Hrun as (request & _ & Hrun).
  destruct (execute_task_returns request w) as (response0 & Hrun0 & _).
  rewrite Hrun0 in Hrun. injection Hrun as <- _.
  unfold execute_task, execute_task_with, bind, try_except in Hrun0.
  cbn in Hrun0. injection Hrun0 as <-. cbn [ExecuteResponse.data].
  split; [|split].
  - rewrite !dom_insert_L, dom_empty_L. set_solver.
  - rewrite !lookup_insert_ne by discriminate. apply lookup_insert_eq.
  - intros key H1 H2 H3.
    rewrite lookup_insert_ne by (intros Heq; apply H3; symmetry; exact Heq).
    rewrite lookup_insert_ne by (intros Heq; apply H2; symmetry; exact Heq).
    rewrite lookup_insert_ne by (intros Heq; apply H1; symmetry; exact Heq).
    apply lookup_empty.
Qed.

Lemma data_keys_witness :
  exists response,
    fst (post_execute scenario_body ticking_world) = inr response /\
    dom (ExecuteResponse.data response) =
      ({[ lit "summary"; lit "model"; lit "tools_used" ]} : gset str) /\
    ExecuteResponse.data response !! lit "summary" =
      Some (VStr (lit "Task processed successfully in stub backend.")) /\
    forall key,
      key <> lit "summary" -> key <> lit "model" -> key <> lit "tools_used" ->
      ExecuteResponse.data response !! key = None.
Proof.
  eexists. split; [reflexivity|].
  exact (data_keys scenario_body ticking_world _ _ eq_refl).
Defined.

(** X9.  Every response carries the status "completed" and the message
    "Execution completed without errors."; each of its steps has a detail
    and the status of the response. *)
Theorem envelope_constants
    (b : Body) (w w' : World) (response : ExecuteResponse.t) :
  post_execute b w = (inr response, w') ->
  ExecuteResponse.status response = lit "completed" /\
  ExecuteResponse.message response =
    lit "Execution completed without errors." /\
  Forall (fun s => Step.detail s <> None /\
                   Step.status s = ExecuteResponse.status response)
    (ExecuteResponse.steps response).
Proof.
  intros Hrun. apply post_execute_inr in Hrun as (request & _ & Hrun).
  unfold execute_task, execute_task_with, bind, try_except in Hrun.
  cbn in Hrun. injection Hrun as <- _.
  cbn [ExecuteResponse.status ExecuteResponse.message ExecuteResponse.steps].
  split; [reflexivity|]. split; [reflexivity|].
  repeat constructor; discriminate.
Qed.

Lemma envelope_constants_witness :
  exists response,
    fst (post_execute scenario_body ticking_world) = inr response /\
    ExecuteResponse.status response = lit "completed" /\
    ExecuteResponse.message response =
      lit "Execution completed without errors." /\
    Forall (fun s => Step.detail s <> None /\
                     Step.status s = ExecuteResponse.status response)
      (ExecuteResponse.steps response).
Proof.
  eexists. split; [reflexivity|].
  exact (envelope_constants scenario_body ticking_world _ _ eq_refl).
Defined.

(** X10.  The task of a response is never blank: it is the task of the
    body, and stripping it leaves something. *)
Theorem response_task_not_blank
    (b : Body) (w w' : World) (response : ExecuteResponse.t) :
  post_execute b w = (inr response, w') ->
  body_task b = Some (ExecuteResponse.task response) /\
  strip (ExecuteResponse.task response) <> [] /\
  blank (ExecuteResponse.task response) = false.
Proof.
  intros Hrun. apply post_execute_inr in Hrun as (request & Hp & Hrun).
  destruct (execute_task_returns request w) as (response0 & Hrun0 & Htask & _).
  rewrite Hrun0 in Hrun. injection Hrun as <- _.
  apply parse_request_inr in Hp as (value & Ht & Hb & ->).
  rewrite Htask. cbn [ExecuteRequest.task].
  split; [exact Ht|]. split; [|exact Hb].
  apply strip_nonempty_not_blank, Hb.
Qed.

Lemma response_task_not_blank_witness :
  exists response,
    fst (post_execute (task_only (lit "  hi  ")) ticking_world) = inr response /\
    body_task (task_only (lit "  hi  ")) =
      Some (ExecuteResponse.task response) /\
    strip (ExecuteResponse.task response) <> [] /\
    blank (ExecuteResponse.task response) = false.
Proof.
  eexists. split; [reflexivity|].
  exact (response_task_not_blank (task_only (lit "  hi  ")) ticking_world
           _ _ eq_refl).
Defined.

(** X12.  Two requests answered one after the other: the second takes
    the two clock readings that follow those of the first, and when the
    clock did not go back between the second and the third of the four
    readings, the second request starts no earlier than the first
    completed. *)
Theorem consecutive_requests
    (b1 b2 : Body) (w w1 w2 : World) (r1 r2 : ExecuteResponse.t) :
  post_execute b1 w = (inr r1, w1) ->
  post_execute b2 w1 = (inr r2, w2) ->
  ExecuteResponse.started_at r1 = wall_clock w (clock_reads w) /\
  ExecuteResponse.completed_at r1 = wall_clock w (clock_reads w + 1)%nat /\
  ExecuteResponse.started_at r2 = wall_clock w (clock_reads w + 2)%nat /\
  ExecuteResponse.completed_at r2 = wall_clock w (clock_reads w + 3)%nat /\
  clock_reads w2 = (clock_reads w + 4)%nat /\
  (wall_clock w (clock_reads w + 1)%nat <= wall_clock w (clock_reads w + 2)%nat ->
   ExecuteResponse.completed_at r1 <= ExecuteResponse.started_at r2).
Proof.
  intros H1 H2.
  apply post_execute_inr in H1 as (q1 & _ & H1).
  apply post_execute_inr in H2 as (q2 & _ & H2).
  destruct (execute_task_returns q1 w)
    as (r1' & E1 & _ & _ & S1 & C1 & _).
  destruct (execute_task_returns q2 w1)
    as (r2' & E2 & _ & _ & S2 & C2 & _).
  rewrite E1 in H1. injection H1 as <- <-.
  rewrite E2 in H2. injection H2 as <- <-.
  rewrite S1, C1, S2, C2. cbn [after_execute wall_clock clock_reads].
  replace (clock_reads w + 1)%nat with (S (clock_reads w)) by lia.
  replace (clock_reads w + 2)%nat with (S (S (clock_reads w))) by lia.
  replace (clock_reads w + 3)%nat with (S (S (S (clock_reads w)))) by lia.
  repeat split; [lia|]. intros Hclock. exact Hclock.
Qed.

Lemma consecutive_requests_witness :
  exists r1 r2 w1 w2,
    post_execute scenario_body ticking_world = (inr r1, w1) /\
    post_execute (task_only (lit "  hi  ")) w1 = (inr r2, w2) /\
    ExecuteResponse.started_at r1 = 0 /\
    ExecuteResponse.completed_at r1 = 1 /\
    ExecuteResponse.started_at r2 = 2 /\
    ExecuteResponse.completed_at r2 = 3 /\
    clock_reads w2 = 4%nat /\
    ExecuteResponse.completed_at r1 <= ExecuteResponse.started_at r2.
Proof.
  pose proof (consecutive_requests scenario_body (task_only (lit "  hi  "))
                ticking_world _ _ _ _ eq_refl eq_refl)
    as (Hs1 & Hc1 & Hs2 & Hc2 & Hn & Hord).
  eexists _, _, _, _. split; [reflexivity|]. split; [reflexivity|].
  split; [exact Hs1|]. split; [exact Hc1|]. split; [exact Hs2|].
  split; [exact Hc2|]. split; [exact Hn|]. apply Hord. cbn. lia.
Defined.

(** X13.  Leaving [model] or [tools] out is the same as sending "claude"
    or the empty list: the two posts have the same outcome and leave the
    same world. *)
Theorem defaults_as_if_sent (b : Body) (w : World) :
  post_execute b w =
  post_execute
    {| body_task := body_task b;
       body_model := Some (default (lit "claude") (body_model b));
       body_tools := Some (default [] (body_tools b)) |} w.
Proof.
  unfold post_execute, parse_request. cbn [body_task body_model body_tools].
  destruct (body_task b) as [value|]; [|reflexivity].
  destruct (ExecuteRequest.validate_task value); reflexivity.
Qed.
